(** * Medical Image Analytics: the Streamlit script [app.py]

    A shallow embedding of one execution ("rerun") of the script: the
    credential lookup, the upload handler, the analysis handler, the
    transcript render loop and the follow-up handler that rebuilds the
    conversation for the stateless [generate_content] call.

    The script is imperative: it mutates [st.session_state], writes widgets
    to the page and calls a remote model, and any of its statements may
    raise.  It is embedded in a small monad that threads a [World]
    and returns a normal result, a raised exception or [st.stop()]. *)

From Stdlib Require Import List String Ascii Strings.Byte Bool Arith Lia.
Import ListNotations.
Open Scope string_scope.
Open Scope list_scope.

Set Implicit Arguments.

(** ** Data *)

(** A part of a turn: the dict [{"mime_type": .., "data": ..}] or a [str]. *)
Inductive Part : Type :=
| InlineData (mime_type : string) (data : list byte)
| Text (s : string).

(** A turn is the dict [{"role": .., "parts": [..]}]. *)
Record Turn : Type := mkTurn {
  role : string;
  parts : list Part
}.

(** What [st.file_uploader] returns when a file is selected. *)
Record UploadedFile : Type := mkUploadedFile {
  name : string;
  type : string;
  getvalue : list byte
}.

(** [st.session_state]: the four keys the script uses; [None] is an absent
    key. *)
Record SessionState : Type := mkSession {
  uploaded_file_content : option (list byte);
  uploaded_file_name : option string;
  uploaded_file_type : option string;
  history : option (list Turn)
}.

Definition empty_session : SessionState := mkSession None None None None.

(** Exceptions the embedded statements can raise.  All of them are
    subclasses of [Exception], so [except Exception] catches each. *)
Inductive exn : Type :=
| AttributeError (attr : string)
| IndexError
| RemoteError (detail : string).

(** The object [generate_content] returns; [response.text] is a property
    that raises when the reply carries no text (a blocked answer).  It is
    read twice by each handler and gives the same result both times. *)
Record Response : Type := mkResponse {
  text : exn + string
}.

(** The argument of [model.generate_content]. *)
Inductive Request : Type :=
| PromptParts (prompt_parts : list Part)
| ChatHistory (chat_history : list Turn).

(** What a run writes to the page, in order. *)
Inductive UiEvent : Type :=
| st_error (body : string) (e : option exn)
| st_warning (body : string)
| st_set_page_config
| st_title (body : string)
| st_subheader (body : string)
| st_file_uploader
| st_image (f : UploadedFile)
| st_button
| st_spinner (body : string)
| st_write (body : string)
| st_divider
| st_chat_message (who : string)
| st_markdown (body : Part)
| st_chat_input.

(** Everything one run reads from outside. *)
Record Env : Type := mkEnv {
  api_key_module : option string;            (* None: ImportError *)
  secrets : option (list (string * string)); (* None: FileNotFoundError *)
  uploaded_file : option UploadedFile;
  submit_button : bool;
  chat_input : option string;
  generate_content : Request -> exn + Response
}.

(** What a run changes. *)
Record World : Type := mkWorld {
  session_state : SessionState;
  page : list UiEvent;
  sent : list Request;
  configured : option string
}.

(** ** String constants of the script *)

Definition newline : string := String (ascii_of_nat 10) EmptyString.

Definition sentinel : string := "Analyze this medical image.".
Definition analysis_instruction : string :=
  (newline ++ "Analyze this medical image based on the system instructions.")%string.
Definition replay_instruction : string :=
  "Analyze this medical image based on the system instructions.".
Definition analysis_heading : string := "1.  **Detailed Description**".
Definition missing_key_message : string :=
  "API Key not found. Please set it in Streamlit secrets or api_key.py".

(** ** The monad *)

Inductive Res (A : Type) : Type :=
| Ok (a : A)
| Raise (e : exn)
| Stop.
Arguments Raise {A} e.
Arguments Stop {A}.

Definition M (A : Type) : Type := World -> Res A * World.

Definition ret {A} (a : A) : M A := fun w => (Ok a, w).
Definition bind {A B} (m : M A) (k : A -> M B) : M B :=
  fun w => match m w with
           | (Ok a, w') => k a w'
           | (Raise e, w') => (Raise e, w')
           | (Stop, w') => (Stop, w')
           end.
Definition raise {A} (e : exn) : M A := fun w => (Raise e, w).
Definition st_stop {A} : M A := fun w => (Stop, w).

Declare Scope script_scope.
Delimit Scope script_scope with script.
Notation "x <- m ;; k" := (bind m (fun x => k))
  (at level 100, m at next level, right associativity) : script_scope.
Notation "m ;;; k" := (bind m (fun _ => k))
  (at level 100, right associativity) : script_scope.
Open Scope script_scope.

(** [try: body except Exception as e: handler e] *)
Definition try_except (body : M unit) (handler : exn -> M unit) : M unit :=
  fun w => match body w with
           | (Raise e, w') => handler e w'
           | r => r
           end.

Definition emit (ev : UiEvent) : M unit :=
  fun w => (Ok tt, mkWorld (session_state w) (page w ++ [ev]) (sent w)
                           (configured w)).

Definition get_session : M SessionState := fun w => (Ok (session_state w), w).

Definition put_session (s : SessionState) : M unit :=
  fun w => (Ok tt, mkWorld s (page w) (sent w) (configured w)).

(** [st.session_state.<attr>], which raises on an absent key. *)
Definition getattr {A} (attr : string) (field : SessionState -> option A)
  : M A :=
  s <- get_session ;;
  match field s with
  | Some v => ret v
  | None => raise (AttributeError attr)
  end.

(** The session after [st.session_state.history = h]. *)
Definition with_history (s : SessionState) (h : list Turn) : SessionState :=
  mkSession (uploaded_file_content s) (uploaded_file_name s)
            (uploaded_file_type s) (Some h).

Definition set_history (h : list Turn) : M unit :=
  s <- get_session ;;
  put_session (with_history s h).

(** [st.session_state.history.append(t)] *)
Definition history_append (t : Turn) : M unit :=
  h <- getattr "history" history ;;
  set_history (h ++ [t]).

(** [xs[0]] *)
Definition index0 {A} (xs : list A) : M A :=
  match xs with
  | x :: _ => ret x
  | [] => raise IndexError
  end.

(** [response.text] *)
Definition response_text (r : Response) : M string :=
  match text r with
  | inr s => ret s
  | inl e => raise e
  end.

Fixpoint for_each {A} (xs : list A) (body : A -> M unit) : M unit :=
  match xs with
  | [] => ret tt
  | x :: rest => body x ;;; for_each rest body
  end.

(** Python's [part == s] for a part that is a dict or a str. *)
Definition part_eq_str (p : Part) (s : string) : bool :=
  match p with
  | Text t => String.eqb t s
  | InlineData _ _ => false
  end.

(** Python's [part.startswith(s)]: a dict has no such method. *)
Definition part_startswith (p : Part) (s : string) : M bool :=
  match p with
  | Text t => ret (String.prefix s t)
  | InlineData _ _ => raise (AttributeError "startswith")
  end.

Section Run.

Variable env : Env.

(** ** Lines 6-26: the credential *)

(** Python truth of [api_key]: neither [None] nor the empty string. *)
Definition truthy (k : option string) : bool :=
  match k with
  | Some s => negb (String.eqb s "")
  | None => false
  end.

Fixpoint lookup (key : string) (d : list (string * string)) : option string :=
  match d with
  | [] => None
  | (k, v) :: rest => if String.eqb k key then Some v else lookup key rest
  end.

(** [api_key] after the two [try] blocks.  [st.secrets] is only touched
    when [not api_key]; a missing secrets file raises there and is caught. *)
Definition resolve_api_key : option string :=
  let api_key := api_key_module env in
  if negb (truthy api_key) then
    match secrets env with
    | None => api_key
    | Some d =>
        match lookup "api_key" d with
        | Some v => Some v
        | None => api_key
        end
    end
  else api_key.

Definition configure : M unit :=
  let api_key := resolve_api_key in
  match api_key with
  | Some k =>
      if negb (truthy api_key) then
        emit (st_error missing_key_message None) ;;; st_stop
      else
        fun w => (Ok tt, mkWorld (session_state w) (page w) (sent w) (Some k))
  | None => emit (st_error missing_key_message None) ;;; st_stop
  end.

(** ** Lines 60-69: the upload handler *)

Definition store_upload (f : UploadedFile) : M unit :=
  put_session (mkSession (Some (getvalue f)) (Some (name f)) (Some (type f))
                         (Some [])).

Definition on_upload : M unit :=
  match uploaded_file env with
  | None => ret tt
  | Some f =>
      emit (st_image f) ;;;
      s <- get_session ;;
      changed <- match uploaded_file_content s with
                 | None => ret true
                 | Some _ =>
                     n <- getattr "uploaded_file_name" uploaded_file_name ;;
                     ret (negb (String.eqb n (name f)))
                 end ;;
      if changed : bool then store_upload f else ret tt
  end.

(** Lines 73-74 *)
Definition init_history : M unit :=
  s <- get_session ;;
  match history s with
  | None => set_history []
  | Some _ => ret tt
  end.

(** [model.generate_content(req)] *)
Definition call_model (req : Request) : M Response :=
  fun w =>
    let w' := mkWorld (session_state w) (page w) (sent w ++ [req])
                      (configured w) in
    match generate_content env req with
    | inr r => (Ok r, w')
    | inl e => (Raise e, w')
    end.

(** ** Lines 76-105: the analysis handler *)

Definition analysis_body : M unit :=
  image_data <- getattr "uploaded_file_content" uploaded_file_content ;;
  mime_type <- getattr "uploaded_file_type" uploaded_file_type ;;
  let image_parts := [InlineData mime_type image_data] in
  image <- index0 image_parts ;;
  let prompt_parts := [image; Text analysis_instruction] in
  emit (st_spinner "Analyzing the image...") ;;;
  response <- call_model (PromptParts prompt_parts) ;;
  emit (st_subheader "Analysis Result") ;;;
  t <- response_text response ;;
  emit (st_write t) ;;;
  history_append (mkTurn "user" [Text sentinel]) ;;;
  t' <- response_text response ;;
  history_append (mkTurn "model" [Text t']).

Definition on_submit : M unit :=
  match submit_button env, uploaded_file env with
  | true, Some _ =>
      try_except analysis_body
                 (fun e => emit (st_error "An error occurred: " (Some e)))
  | true, None => emit (st_warning "Please upload an image first.")
  | false, _ => ret tt
  end.

(** ** Lines 114-124: the transcript render loop *)

Definition render_message (message : Turn) : M unit :=
  is_trigger <- (if String.eqb (role message) "user"
                 then p <- index0 (parts message) ;; ret (part_eq_str p sentinel)
                 else ret false) ;;
  if is_trigger : bool then ret tt else
  is_analysis <- (if String.eqb (role message) "model"
                  then p <- index0 (parts message) ;;
                       part_startswith p analysis_heading
                  else ret false) ;;
  if is_analysis : bool then ret tt else
  emit (st_chat_message (role message)) ;;;
  p <- index0 (parts message) ;;
  emit (st_markdown p).

(** ** Lines 134-161: rebuilding the conversation *)

Fixpoint replay_loop (chat_history : list Turn) (msgs : list Turn)
  : M (list Turn) :=
  match msgs with
  | [] => ret chat_history
  | msg :: rest =>
      p <- index0 (parts msg) ;;
      if part_eq_str p sentinel
      then replay_loop chat_history rest
      else replay_loop (chat_history ++ [msg]) rest
  end.

Definition build_chat_history (prompt : string) : M (list Turn) :=
  s <- get_session ;;
  chat_history <- match uploaded_file_content s with
                  | Some _ =>
                      mime <- getattr "uploaded_file_type" uploaded_file_type ;;
                      data <- getattr "uploaded_file_content"
                                      uploaded_file_content ;;
                      let image_part := InlineData mime data in
                      ret [mkTurn "user" [image_part; Text replay_instruction]]
                  | None => ret []
                  end ;;
  h <- getattr "history" history ;;
  chat_history <- replay_loop chat_history h ;;
  ret (chat_history ++ [mkTurn "user" [Text prompt]]).

(** ** Lines 164-183: the follow-up call *)

Definition follow_up_body (prompt : string) (chat_history : list Turn)
  : M unit :=
  emit (st_spinner "Thinking...") ;;;
  response <- call_model (ChatHistory chat_history) ;;
  emit (st_chat_message "assistant") ;;;
  t <- response_text response ;;
  emit (st_markdown (Text t)) ;;;
  history_append (mkTurn "user" [Text prompt]) ;;;
  t' <- response_text response ;;
  history_append (mkTurn "model" [Text t']).

Definition on_chat_input (prompt : string) : M unit :=
  emit (st_chat_message "user") ;;;
  emit (st_markdown (Text prompt)) ;;;
  chat_history <- build_chat_history prompt ;;
  try_except (follow_up_body prompt chat_history)
             (fun e => emit (st_error "An error occurred during follow-up: "
                                      (Some e))).

(** Lines 108-183 *)
Definition chat_section : M unit :=
  h <- getattr "history" history ;;
  match h with
  | [] => ret tt
  | _ :: _ =>
      emit st_divider ;;;
      emit (st_subheader "Follow-up Questions") ;;;
      for_each h render_message ;;;
      emit st_chat_input ;;;
      match chat_input env with
      | Some prompt =>
          if String.eqb prompt "" then ret tt else on_chat_input prompt
      | None => ret tt
      end
  end.

(** ** The whole script *)

(** Lines 71-183: everything after the upload handler. *)
Definition handlers : M unit :=
  emit st_button ;;;
  init_history ;;;
  on_submit ;;;
  chat_section.

Definition script : M unit :=
  configure ;;;
  emit st_set_page_config ;;;
  emit (st_title "Medical Image Analytics") ;;;
  emit (st_subheader
          "An application that can help users to identify medical images") ;;;
  emit st_file_uploader ;;;
  on_upload ;;;
  handlers.

(** One run on a fresh page, from session [s]. *)
Definition run (s : SessionState) : Res unit * World :=
  script (mkWorld s [] [] None).

End Run.

(** ** Runs, one after the other *)

(** The sessions the script can be in between two runs: it starts with an
    empty [st.session_state], and every run (whatever it reads, however it
    ends) leaves the next one its session. *)
Inductive reachable : SessionState -> Prop :=
| reachable_start : reachable empty_session
| reachable_run : forall env s,
    reachable s -> reachable (session_state (snd (run env s))).

(** ** Vocabulary of the properties *)

(** A turn with exactly one part, which is plain text. *)
Definition text_only (t : Turn) : Prop := exists s, parts t = [Text s].

Definition is_inline_data (p : Part) : bool :=
  match p with
  | InlineData _ _ => true
  | Text _ => false
  end.

(** A turn that carries image data in one of its parts. *)
Definition carries_image (t : Turn) : bool := existsb is_inline_data (parts t).

(** The synthesized first turn of a replay. *)
Definition first_turn (mime : string) (data : list byte) : Turn :=
  mkTurn "user" [InlineData mime data; Text replay_instruction].

Definition user_turn (q : string) : Turn := mkTurn "user" [Text q].
Definition model_turn (t : string) : Turn := mkTurn "model" [Text t].

(** The test of line 153 on a stored turn. *)
Definition is_trigger (t : Turn) : bool :=
  match parts t with
  | p :: _ => part_eq_str p sentinel
  | [] => false
  end.

(** The stored turns a replay keeps. *)
Definition replayed (h : list Turn) : list Turn :=
  filter (fun t => negb (is_trigger t)) h.

(** The two tests of lines 115 and 117 on a stored turn. *)
Definition hidden (t : Turn) : bool :=
  match parts t with
  | Text s :: _ =>
      (String.eqb (role t) "user" && String.eqb s sentinel)
      || (String.eqb (role t) "model" && String.prefix analysis_heading s)
  | _ => false
  end.

(** The stored turns the transcript shows, and what it writes for each. *)
Definition displayed (h : list Turn) : list Turn :=
  filter (fun t => negb (hidden t)) h.

Definition bubble (t : Turn) : list UiEvent :=
  match parts t with
  | p :: _ => [st_chat_message (role t); st_markdown p]
  | [] => []
  end.

Definition write_page (w : World) (evs : list UiEvent) : World :=
  mkWorld (session_state w) (page w ++ evs) (sent w) (configured w).

(** What holds of the session at every point of every run. *)
Definition session_ok (s : SessionState) : Prop :=
  (forall h, history s = Some h -> Forall text_only h)
  /\ (uploaded_file_content s = None ->
      history s = None \/ history s = Some [])
  /\ (uploaded_file_content s <> None ->
      uploaded_file_type s <> None /\ uploaded_file_name s <> None
      /\ history s <> None).

(** ** The two loops as filters *)

Lemma text_only_parts (t : Turn) : text_only t -> parts t <> [].
Proof. intros [s Hs]. rewrite Hs. discriminate. Qed.

Lemma text_only_no_image (t : Turn) : text_only t -> carries_image t = false.
Proof. intros [s Hs]. unfold carries_image. rewrite Hs. reflexivity. Qed.

Lemma replay_loop_filter (h : list Turn) :
  Forall (fun t => parts t <> []) h ->
  forall acc w, replay_loop acc h w = (Ok (acc ++ replayed h), w).
Proof.
  induction 1 as [|t h Ht _ IH]; intros acc w; simpl.
  - unfold ret. now rewrite app_nil_r.
  - unfold replayed in *. simpl. unfold bind, is_trigger.
    destruct (parts t) as [|p ps]; [contradiction|]. simpl.
    destruct (part_eq_str p sentinel); simpl.
    + apply IH.
    + rewrite IH. now rewrite <- app_assoc.
Qed.

Lemma write_page_nil (w : World) : write_page w [] = w.
Proof. destruct w. unfold write_page. simpl. now rewrite app_nil_r. Qed.

Lemma write_page_app (w : World) (a b : list UiEvent) :
  write_page (write_page w a) b = write_page w (a ++ b).
Proof. unfold write_page. simpl. now rewrite app_assoc. Qed.

Lemma emit_bubble (r : string) (p : Part) (w : World) :
  (emit (st_chat_message r) ;;; emit (st_markdown p)) w
  = (Ok tt, write_page w [st_chat_message r; st_markdown p]).
Proof.
  unfold bind, emit, write_page. simpl. now rewrite <- app_assoc.
Qed.

Lemma render_message_text (t : Turn) (w : World) :
  text_only t ->
  render_message t w
  = (Ok tt, write_page w (if hidden t then [] else bubble t)).
Proof.
  intros [s Hs]. unfold render_message, hidden, bubble. rewrite Hs.
  pose proof (emit_bubble (role t) (Text s) w) as Hb.
  unfold bind in *. simpl.
  destruct (String.eqb (role t) "user") eqn:Hu; simpl.
  - destruct (String.eqb s sentinel) eqn:Hsen; simpl.
    + now rewrite write_page_nil.
    + destruct (String.eqb (role t) "model") eqn:Hm; simpl.
      * apply String.eqb_eq in Hu, Hm. rewrite Hu in Hm. discriminate.
      * exact Hb.
  - destruct (String.eqb (role t) "model"); simpl.
    + destruct (String.prefix analysis_heading s); simpl.
      * now rewrite write_page_nil.
      * exact Hb.
    + exact Hb.
Qed.

Lemma render_loop_filter (h : list Turn) :
  Forall text_only h ->
  forall w, for_each h render_message w
            = (Ok tt, write_page w (flat_map bubble (displayed h))).
Proof.
  induction 1 as [|t h Ht _ IH]; intros w; simpl.
  - unfold ret. now rewrite write_page_nil.
  - unfold bind. rewrite (render_message_text w Ht), IH, write_page_app.
    unfold displayed. simpl. destruct (hidden t); reflexivity.
Qed.

Lemma replayed_app (a b : list Turn) : replayed (a ++ b) = replayed a ++ replayed b.
Proof. apply filter_app. Qed.

Lemma displayed_app (a b : list Turn) :
  displayed (a ++ b) = displayed a ++ displayed b.
Proof. apply filter_app. Qed.

Lemma replayed_text_only (h : list Turn) :
  Forall text_only h -> Forall text_only (replayed h).
Proof.
  intros H. apply Forall_forall. intros t Ht.
  apply filter_In in Ht. destruct Ht as [Ht _].
  revert t Ht. now apply Forall_forall.
Qed.

#[global] Arguments replayed : simpl never.
#[global] Arguments displayed : simpl never.

(** ** The handlers, step by step *)

Definition put_world_session (w : World) (s : SessionState) : World :=
  mkWorld s (page w) (sent w) (configured w).

Lemma history_append_eq (t : Turn) (w : World) (h : list Turn) :
  history (session_state w) = Some h ->
  history_append t w
  = (Ok tt, put_world_session w (with_history (session_state w) (h ++ [t]))).
Proof.
  intros Hh. unfold history_append, getattr, set_history, bind, get_session.
  rewrite Hh. reflexivity.
Qed.

Lemma with_history_twice (s : SessionState) (h : list Turn) (a b : Turn) :
  with_history (with_history s (h ++ [a])) ((h ++ [a]) ++ [b])
  = with_history s (h ++ [a; b]).
Proof. unfold with_history. simpl. now rewrite <- app_assoc. Qed.

(** The request of the analysis handler for the stored image. *)
Definition analysis_request (mime : string) (data : list byte) : Request :=
  PromptParts [InlineData mime data; Text analysis_instruction].

Section Handlers.

Variable env : Env.

Lemma build_chat_history_eq (q : string) (w : World) mime data h :
  uploaded_file_content (session_state w) = Some data ->
  uploaded_file_type (session_state w) = Some mime ->
  history (session_state w) = Some h ->
  Forall (fun t => parts t <> []) h ->
  build_chat_history q w
  = (Ok (first_turn mime data :: replayed h ++ [user_turn q]), w).
Proof.
  intros Hc Ht Hh Hne.
  unfold build_chat_history, getattr, bind, get_session.
  repeat (progress (rewrite ?Hc, ?Ht, ?Hh; simpl)).
  rewrite (replay_loop_filter Hne). reflexivity.
Qed.

Lemma analysis_body_eq (w : World) mime data h :
  uploaded_file_content (session_state w) = Some data ->
  uploaded_file_type (session_state w) = Some mime ->
  history (session_state w) = Some h ->
  analysis_body env w
  = let w1 := mkWorld (session_state w)
                      (page w ++ [st_spinner "Analyzing the image..."])
                      (sent w ++ [analysis_request mime data])
                      (configured w) in
    match generate_content env (analysis_request mime data) with
    | inl e => (Raise e, w1)
    | inr r =>
        let w2 := write_page w1 [st_subheader "Analysis Result"] in
        match text r with
        | inl e => (Raise e, w2)
        | inr t =>
            (Ok tt,
             put_world_session
               (write_page w2 [st_write t])
               (with_history (session_state w)
                             (h ++ [user_turn sentinel; model_turn t])))
        end
    end.
Proof.
  intros Hc Ht Hh.
  unfold analysis_body, getattr, call_model, response_text, analysis_request,
    index0, bind, get_session, emit.
  repeat (progress (rewrite ?Hc, ?Ht; simpl)).
  destruct (generate_content env _) as [e|r]; [reflexivity|].
  simpl. destruct (text r) as [e|t]; [reflexivity|].
  simpl. erewrite history_append_eq by (simpl; eassumption). simpl.
  erewrite history_append_eq by (simpl; reflexivity). simpl.
  unfold put_world_session, write_page. simpl.
  rewrite with_history_twice, <- app_assoc. reflexivity.
Qed.

Lemma follow_up_body_eq (q : string) (l : list Turn) (w : World) h :
  history (session_state w) = Some h ->
  follow_up_body env q l w
  = let w1 := mkWorld (session_state w)
                      (page w ++ [st_spinner "Thinking..."])
                      (sent w ++ [ChatHistory l])
                      (configured w) in
    match generate_content env (ChatHistory l) with
    | inl e => (Raise e, w1)
    | inr r =>
        let w2 := write_page w1 [st_chat_message "assistant"] in
        match text r with
        | inl e => (Raise e, w2)
        | inr t =>
            (Ok tt,
             put_world_session
               (write_page w2 [st_markdown (Text t)])
               (with_history (session_state w)
                             (h ++ [user_turn q; model_turn t])))
        end
    end.
Proof.
  intros Hh.
  unfold follow_up_body, call_model, response_text, bind, emit.
  destruct (generate_content env _) as [e|r]; [reflexivity|].
  simpl. destruct (text r) as [e|t]; [reflexivity|].
  simpl. erewrite history_append_eq by (simpl; eassumption). simpl.
  erewrite history_append_eq by (simpl; reflexivity). simpl.
  unfold put_world_session, write_page. simpl.
  rewrite with_history_twice, <- app_assoc. reflexivity.
Qed.

Lemma build_chat_history_no_image (q : string) (w : World) h :
  uploaded_file_content (session_state w) = None ->
  history (session_state w) = Some h ->
  Forall (fun t => parts t <> []) h ->
  build_chat_history q w = (Ok (replayed h ++ [user_turn q]), w).
Proof.
  intros Hc Hh Hne.
  unfold build_chat_history, getattr, bind, get_session.
  repeat (progress (rewrite ?Hc, ?Hh; simpl)).
  rewrite (replay_loop_filter Hne). reflexivity.
Qed.

(** The follow-up handler on a session that holds an image. *)
Lemma on_chat_input_eq (q : string) (w : World) mime data h :
  uploaded_file_content (session_state w) = Some data ->
  uploaded_file_type (session_state w) = Some mime ->
  history (session_state w) = Some h ->
  Forall text_only h ->
  on_chat_input env q w
  = let l := first_turn mime data :: replayed h ++ [user_turn q] in
    let echo := [st_chat_message "user"; st_markdown (Text q);
                 st_spinner "Thinking..."] in
    let failed e :=
      st_error "An error occurred during follow-up: " (Some e) in
    match generate_content env (ChatHistory l) with
    | inl e =>
        (Ok tt, mkWorld (session_state w) (page w ++ echo ++ [failed e])
                        (sent w ++ [ChatHistory l]) (configured w))
    | inr r =>
        match text r with
        | inl e =>
            (Ok tt,
             mkWorld (session_state w)
                     (page w ++ echo ++ [st_chat_message "assistant"; failed e])
                     (sent w ++ [ChatHistory l]) (configured w))
        | inr t =>
            (Ok tt,
             mkWorld (with_history (session_state w)
                                   (h ++ [user_turn q; model_turn t]))
                     (page w ++ echo ++ [st_chat_message "assistant";
                                         st_markdown (Text t)])
                     (sent w ++ [ChatHistory l]) (configured w))
        end
    end.
Proof.
  intros Hc Ht Hh Htxt.
  assert (Hne : Forall (fun t => parts t <> []) h).
  { eapply Forall_impl; [|exact Htxt]. apply text_only_parts. }
  unfold on_chat_input, bind, emit. simpl.
  erewrite build_chat_history_eq; try (simpl; eassumption).
  unfold try_except.
  erewrite follow_up_body_eq by (simpl; eassumption). simpl.
  destruct (generate_content env _) as [e|r]; simpl.
  - unfold emit. simpl. now rewrite <- !app_assoc.
  - destruct (text r) as [e|t]; unfold emit, put_world_session, write_page;
      simpl; now rewrite <- !app_assoc.
Qed.

End Handlers.

(** ** Invariants along a run *)

(** [triple P m Q E]: from a world in [P], the script [m] ends normally in
    [Q], and ends by an exception or by [st.stop()] in [E]. *)
Definition triple {A} (P : World -> Prop) (m : M A)
  (Q : A -> World -> Prop) (E : World -> Prop) : Prop :=
  forall w, P w ->
    match m w with
    | (Ok a, w') => Q a w'
    | (Raise _, w') => E w'
    | (Stop, w') => E w'
    end.

Lemma triple_bind {A B} (P : World -> Prop) (m : M A) (k : A -> M B)
  (Q : A -> World -> Prop) (R : B -> World -> Prop) (E : World -> Prop) :
  triple P m Q E -> (forall a, triple (Q a) (k a) R E) ->
  triple P (bind m k) R E.
Proof.
  intros Hm Hk w Hw. unfold bind. specialize (Hm w Hw).
  destruct (m w) as [[a| |] w']; auto. now apply Hk.
Qed.

Lemma triple_weaken {A} (P P' : World -> Prop) (m : M A)
  (Q Q' : A -> World -> Prop) (E E' : World -> Prop) :
  triple P m Q E ->
  (forall w, P' w -> P w) -> (forall a w, Q a w -> Q' a w) ->
  (forall w, E w -> E' w) ->
  triple P' m Q' E'.
Proof.
  intros Hm HP HQ HE w Hw. specialize (Hm w (HP w Hw)).
  destruct (m w) as [[a| |] w']; auto.
Qed.

(** A property that does not look at the page survives [emit]. *)
Definition page_blind (P : World -> Prop) : Prop :=
  forall w evs, P w -> P (write_page w evs).

Lemma triple_emit (P : World -> Prop) (ev : UiEvent) (E : World -> Prop) :
  page_blind P -> triple P (emit ev) (fun _ => P) E.
Proof. intros HP w Hw. simpl. exact (HP w [ev] Hw). Qed.

(** The shape of a rebuilt conversation for question [q] in session [s]. *)
Definition replay_shape (s : SessionState) (q : string) (l : list Turn)
  : Prop :=
  exists mime data mid,
    uploaded_file_content s = Some data
    /\ uploaded_file_type s = Some mime
    /\ l = first_turn mime data :: mid ++ [user_turn q]
    /\ Forall text_only mid.

Definition no_chat_request (w : World) : Prop :=
  forall l, ~ In (ChatHistory l) (sent w).

Definition requests_ok (env : Env) (w : World) : Prop :=
  forall l, In (ChatHistory l) (sent w) ->
    exists q, chat_input env = Some q /\ replay_shape (session_state w) q l.

(** Before the analysis handler, after it, and at the end of a run. *)
Definition fresh_ok (w : World) : Prop :=
  session_ok (session_state w) /\ sent w = [].
Definition analysed_ok (w : World) : Prop :=
  session_ok (session_state w) /\ no_chat_request w.
Definition run_ok (env : Env) (w : World) : Prop :=
  session_ok (session_state w) /\ requests_ok env w.

Lemma fresh_analysed (w : World) : fresh_ok w -> analysed_ok w.
Proof. intros [H Hs]. split; auto. intros l. rewrite Hs. auto. Qed.

Lemma analysed_run (env : Env) (w : World) : analysed_ok w -> run_ok env w.
Proof. intros [H Hs]. split; auto. intros l Hl. now apply Hs in Hl. Qed.

Lemma fresh_page_blind : page_blind fresh_ok.
Proof. intros w evs H. exact H. Qed.

Lemma session_ok_empty : session_ok empty_session.
Proof.
  repeat split; simpl; auto; try discriminate; intros H; now elim H.
Qed.

Lemma session_ok_stored (f : UploadedFile) :
  session_ok (mkSession (Some (getvalue f)) (Some (name f)) (Some (type f))
                        (Some [])).
Proof.
  repeat split; simpl; try discriminate.
  intros h Hh. injection Hh as <-. constructor.
Qed.

Lemma session_ok_init (s : SessionState) :
  session_ok s -> history s = None -> session_ok (with_history s []).
Proof.
  intros (H1 & H2 & H3) Hh. repeat split; simpl; auto; try discriminate.
  - intros h E. injection E as <-. constructor.
  - now apply H3.
  - now apply H3.
Qed.

Lemma session_ok_append (s : SessionState) (h : list Turn) (a b : string) :
  session_ok s -> uploaded_file_content s <> None -> history s = Some h ->
  session_ok (with_history s (h ++ [user_turn a; model_turn b])).
Proof.
  intros (H1 & H2 & H3) Hc Hh. repeat split; simpl; try discriminate.
  - intros h' E. injection E as <-. apply Forall_app. split; [now apply H1|].
    repeat constructor; eexists; reflexivity.
  - intros E. now elim Hc.
  - now apply H3.
  - now apply H3.
Qed.

Lemma session_ok_image (s : SessionState) (t : Turn) (h : list Turn) :
  session_ok s -> history s = Some (t :: h) ->
  exists mime data,
    uploaded_file_content s = Some data /\ uploaded_file_type s = Some mime.
Proof.
  intros (H1 & H2 & H3) Hh.
  destruct (uploaded_file_content s) as [data|] eqn:Hc.
  - destruct (uploaded_file_type s) as [mime|] eqn:Ht.
    + now exists mime, data.
    + destruct H3 as [H3 _]; [discriminate|]. now elim H3.
  - destruct (H2 eq_refl) as [E|E]; rewrite E in Hh; discriminate.
Qed.

Section Phases.

Variable env : Env.

Lemma configure_triple :
  triple fresh_ok (configure env) (fun _ => fresh_ok) fresh_ok.
Proof.
  intros w H. unfold configure.
  destruct (resolve_api_key env) as [k|];
    [destruct (negb (truthy (Some k)))|]; simpl; exact H.
Qed.

Lemma on_upload_triple :
  triple fresh_ok (on_upload env) (fun _ => fresh_ok) fresh_ok.
Proof.
  intros w [Hok Hs]. unfold on_upload.
  destruct (uploaded_file env) as [f|]; [|split; assumption].
  unfold getattr, store_upload, bind, emit, get_session, put_session. simpl.
  destruct (uploaded_file_content (session_state w)); simpl.
  - destruct (uploaded_file_name (session_state w)) as [n|]; simpl.
    + destruct (negb (String.eqb n (name f))); simpl; split; auto.
      apply session_ok_stored.
    + split; assumption.
  - split; auto. apply session_ok_stored.
Qed.

Lemma init_history_triple :
  triple fresh_ok init_history (fun _ => fresh_ok) fresh_ok.
Proof.
  intros w [Hok Hs]. unfold init_history, set_history, bind, get_session.
  destruct (history (session_state w)) eqn:Hh; simpl.
  - split; assumption.
  - split; auto. now apply session_ok_init.
Qed.

Lemma analysis_body_no_image (w : World) :
  uploaded_file_content (session_state w) = None ->
  analysis_body env w = (Raise (AttributeError "uploaded_file_content"), w).
Proof.
  intros Hc. unfold analysis_body, getattr, bind, get_session.
  now rewrite Hc.
Qed.

Lemma no_chat_request_analysis (w : World) mime data s p c :
  sent w = [] ->
  no_chat_request (mkWorld s p (sent w ++ [analysis_request mime data]) c).
Proof.
  intros Hs l. simpl. rewrite Hs. simpl. intros [H|[]]. discriminate.
Qed.

Lemma on_submit_triple :
  triple fresh_ok (on_submit env) (fun _ => analysed_ok) analysed_ok.
Proof.
  intros w Hw. pose proof (fresh_analysed Hw) as Ha.
  destruct Hw as [Hok Hs]. unfold on_submit.
  destruct (submit_button env); [|exact Ha].
  destruct (uploaded_file env) as [f|]; [|exact Ha].
  unfold try_except.
  destruct (uploaded_file_content (session_state w)) as [data|] eqn:Hc.
  - destruct Hok as (H1 & H2 & H3).
    destruct H3 as (Ht & _ & Hh); [rewrite Hc; discriminate|].
    destruct (uploaded_file_type (session_state w)) as [mime|] eqn:Hty;
      [|now elim Ht].
    destruct (history (session_state w)) as [h|] eqn:Hhi; [|now elim Hh].
    rewrite (analysis_body_eq env w Hc Hty Hhi). simpl.
    destruct (generate_content env _) as [e|r]; simpl.
    + split; [apply Ha|]. now apply no_chat_request_analysis.
    + destruct (text r) as [e|t]; simpl.
      * split; [apply Ha|]. now apply no_chat_request_analysis.
      * split; [|now apply no_chat_request_analysis].
        apply session_ok_append; auto.
        -- apply Ha.
        -- rewrite Hc. discriminate.
  - rewrite (analysis_body_no_image w Hc). exact Ha.
Qed.

Lemma chat_section_triple :
  triple analysed_ok (chat_section env) (fun _ => run_ok env) (run_ok env).
Proof.
  intros w Hw. pose proof (analysed_run env Hw) as Hr.
  destruct Hw as [Hok Hs]. unfold chat_section, getattr.
  unfold bind at 1. unfold bind at 1. unfold get_session.
  destruct (history (session_state w)) as [h|] eqn:Hh; [|exact Hr].
  simpl. destruct h as [|t0 h0]; [exact Hr|].
  destruct (session_ok_image Hok Hh) as (mime & data & Hc & Hty).
  assert (Htxt : Forall text_only (t0 :: h0)) by (now apply Hok).
  assert (Hne : Forall (fun t => parts t <> []) (t0 :: h0)).
  { eapply Forall_impl; [|exact Htxt]. apply text_only_parts. }
  unfold bind, emit. rewrite (render_loop_filter Htxt).
  destruct (chat_input env) as [q|] eqn:Hq; [|exact Hr].
  destruct (String.eqb q ""); [exact Hr|].
  unfold on_chat_input, bind, emit. simpl.
  erewrite build_chat_history_eq; try (simpl; eassumption).
  unfold try_except.
  erewrite follow_up_body_eq by (simpl; eassumption). simpl.
  assert (Hshape : forall s', uploaded_file_content s' = Some data ->
            uploaded_file_type s' = Some mime ->
            forall l, In (ChatHistory l)
                         (sent w ++ [ChatHistory (first_turn mime data
                            :: replayed (t0 :: h0) ++ [user_turn q])]) ->
            exists q', chat_input env = Some q' /\ replay_shape s' q' l).
  { intros s' Hc' Ht' l Hl. apply in_app_or in Hl. destruct Hl as [Hl|Hl].
    - now apply Hs in Hl.
    - destruct Hl as [Hl|[]]. injection Hl as <-. exists q. split; auto.
      exists mime, data, (replayed (t0 :: h0)). repeat split; auto.
      now apply replayed_text_only. }
  destruct (generate_content env _) as [e|r]; simpl.
  - split; [exact Hok|]. intros l Hl. simpl in *. now apply Hshape.
  - destruct (text r) as [e|t]; unfold put_world_session, write_page; simpl.
    + split; [exact Hok|]. intros l Hl. simpl in *. now apply Hshape.
    + split.
      * refine (session_ok_append (h := t0 :: h0) q t Hok _ Hh).
        rewrite Hc. discriminate.
      * intros l Hl. simpl in *. now apply Hshape.
Qed.

Lemma fresh_run (w : World) : fresh_ok w -> run_ok env w.
Proof. intros H. now apply analysed_run, fresh_analysed. Qed.

Lemma handlers_triple :
  triple fresh_ok (handlers env) (fun _ => run_ok env) (run_ok env).
Proof.
  unfold handlers.
  apply triple_bind with (Q := fun _ => fresh_ok);
    [apply triple_emit, fresh_page_blind|].
  intros ?. apply triple_bind with (Q := fun _ => fresh_ok).
  { eapply triple_weaken; [apply init_history_triple | auto | auto |].
    apply fresh_run. }
  intros ?. apply triple_bind with (Q := fun _ => analysed_ok).
  { eapply triple_weaken; [apply on_submit_triple | auto | auto |].
    apply analysed_run. }
  intros ?. apply chat_section_triple.
Qed.

Lemma script_triple :
  triple fresh_ok (script env) (fun _ => run_ok env) (run_ok env).
Proof.
  assert (Hemit : forall ev,
             triple fresh_ok (emit ev) (fun _ => fresh_ok) (run_ok env)).
  { intros ev. apply triple_emit, fresh_page_blind. }
  unfold script.
  apply triple_bind with (Q := fun _ => fresh_ok).
  { eapply triple_weaken; [apply configure_triple | auto | auto |].
    apply fresh_run. }
  intros ?. apply triple_bind with (Q := fun _ => fresh_ok); [apply Hemit|].
  intros ?. apply triple_bind with (Q := fun _ => fresh_ok); [apply Hemit|].
  intros ?. apply triple_bind with (Q := fun _ => fresh_ok); [apply Hemit|].
  intros ?. apply triple_bind with (Q := fun _ => fresh_ok); [apply Hemit|].
  intros ?. apply triple_bind with (Q := fun _ => fresh_ok).
  { eapply triple_weaken; [apply on_upload_triple | auto | auto |].
    apply fresh_run. }
  intros ?. apply handlers_triple.
Qed.

Lemma run_keeps_ok (s : SessionState) :
  session_ok s -> run_ok env (snd (run env s)).
Proof.
  intros Hs. unfold run.
  pose proof (script_triple (w := mkWorld s [] [] None)) as H.
  destruct (script env _) as [[[]| |] w']; apply H; split; auto.
Qed.

End Phases.

Lemma reachable_ok (s : SessionState) : reachable s -> session_ok s.
Proof.
  induction 1 as [|env s _ IH].
  - apply session_ok_empty.
  - now apply run_keeps_ok.
Qed.

(** ** Concrete sessions and inputs *)

Definition image_a : UploadedFile :=
  mkUploadedFile "a.png" "image/png" [x89; x50; x4e; x47].

Definition answers (t : string) : Request -> exn + Response :=
  fun _ => inr (mkResponse (inr t)).
Definition unreachable_service : Request -> exn + Response :=
  fun _ => inl (RemoteError "503 service unavailable").
Definition blocked_answer : Request -> exn + Response :=
  fun _ => inr (mkResponse (inl (RemoteError "response has no text"))).

(** Upload image A and press the button; the model answers. *)
Definition env_analyze : Env :=
  mkEnv (Some "key") None (Some image_a) true None (answers "No fracture.").
Definition session_analyzed : SessionState :=
  Eval vm_compute in session_state (snd (run env_analyze empty_session)).

(** Ask a question about image A. *)
Definition env_ask : Env :=
  mkEnv (Some "key") None (Some image_a) false (Some "Is this serious?")
        (answers "No.").
Definition session_asked : SessionState :=
  Eval vm_compute in session_state (snd (run env_ask session_analyzed)).

(** The model repeats the trigger text as its analysis. *)
Definition env_parrot : Env :=
  mkEnv (Some "key") None (Some image_a) true None (answers sentinel).

(** The user types the trigger text as a question. *)
Definition env_type_sentinel : Env :=
  mkEnv (Some "key") None (Some image_a) false (Some sentinel)
        (answers "It is an X-ray.").

(** The same two actions with a service that fails. *)
Definition env_analyze_down : Env :=
  mkEnv (Some "key") None (Some image_a) true None unreachable_service.
Definition env_ask_blocked : Env :=
  mkEnv (Some "key") None (Some image_a) false (Some "Is this serious?")
        blocked_answer.


(** The button is pressed with no file selected. *)
Definition env_no_image : Env :=
  mkEnv (Some "key") None None true None (answers "unused").

(** No credential anywhere; an empty file value and a secret. *)
Definition env_no_key : Env :=
  mkEnv None None (Some image_a) true None (answers "unused").
Definition env_secret_only : Env :=
  mkEnv (Some "") (Some [("api_key", "from-secrets")]) None false None
        (answers "unused").
Definition env_both_keys : Env :=
  mkEnv (Some "from-file") (Some [("api_key", "from-secrets")]) None false
        None (answers "unused").

Definition fresh_world (s : SessionState) : World := mkWorld s [] [] None.

Lemma session_analyzed_run :
  session_state (snd (run env_analyze empty_session)) = session_analyzed.
Proof. vm_compute. reflexivity. Qed.

Lemma session_asked_run :
  session_state (snd (run env_ask session_analyzed)) = session_asked.
Proof. vm_compute. reflexivity. Qed.

Lemma reachable_analyzed : reachable session_analyzed.
Proof.
  rewrite <- session_analyzed_run. apply reachable_run, reachable_start.
Qed.

Lemma reachable_asked : reachable session_asked.
Proof.
  rewrite <- session_asked_run. apply reachable_run, reachable_analyzed.
Qed.

Example analyzed_history :
  history session_analyzed
  = Some [user_turn sentinel; model_turn "No fracture."].
Proof. vm_compute. reflexivity. Qed.

Example asked_history :
  history session_asked
  = Some [user_turn sentinel; model_turn "No fracture.";
          user_turn "Is this serious?"; model_turn "No."].
Proof. vm_compute. reflexivity. Qed.

Example asked_request :
  sent (snd (run env_ask session_analyzed))
  = [ChatHistory [first_turn "image/png" [x89; x50; x4e; x47];
                  model_turn "No fracture."; user_turn "Is this serious?"]].
Proof. vm_compute. reflexivity. Qed.

(** ** The replay list (lines 134-161) *)

Lemma replayed_no_image (h : list Turn) (q : string) :
  Forall text_only h ->
  filter carries_image (replayed h ++ [user_turn q]) = [].
Proof.
  intros H. apply replayed_text_only in H.
  induction H as [|t l Ht _ IH]; simpl; [reflexivity|].
  now rewrite (text_only_no_image Ht).
Qed.

Lemma shape_no_image (mid : list Turn) (q : string) :
  Forall text_only mid ->
  filter carries_image (mid ++ [user_turn q]) = [].
Proof.
  induction 1 as [|t l Ht _ IH]; simpl; [reflexivity|].
  now rewrite (text_only_no_image Ht).
Qed.

(** C1.  In every session the script can reach that holds an image, the
    list built for a new question [q] is the image turn (role user, parts
    image then the fixed instruction), then stored turns, then the user
    turn [q]; the image turn is the only turn of the list that carries image
    data.  Moreover every conversation a run sends to the model, from any
    reachable session and on any inputs, has this shape for the question
    typed in that run and the image of the session. *)
Theorem replay_begins_with_image_ends_with_question (s : SessionState) :
  reachable s ->
  (forall data, uploaded_file_content s = Some data ->
     exists mime h,
       uploaded_file_type s = Some mime /\ history s = Some h
       /\ forall q w, session_state w = s ->
            let l := first_turn mime data :: replayed h ++ [user_turn q] in
            build_chat_history q w = (Ok l, w)
            /\ filter carries_image l = [first_turn mime data])
  /\ (forall env l,
        In (ChatHistory l) (sent (snd (run env s))) ->
        exists q mime data mid,
          chat_input env = Some q
          /\ uploaded_file_content (session_state (snd (run env s)))
             = Some data
          /\ uploaded_file_type (session_state (snd (run env s))) = Some mime
          /\ l = first_turn mime data :: mid ++ [user_turn q]
          /\ filter carries_image l = [first_turn mime data]).
Proof.
  intros Hr. pose proof (reachable_ok Hr) as Hok. split.
  - intros data Hc. destruct Hok as (H1 & H2 & H3).
    destruct H3 as (Ht & _ & Hh); [rewrite Hc; discriminate|].
    destruct (uploaded_file_type s) as [mime|] eqn:Hty; [|now elim Ht].
    destruct (history s) as [h|] eqn:Hhi; [|now elim Hh].
    exists mime, h. repeat split; auto.
    + subst s. apply build_chat_history_eq; auto.
      eapply Forall_impl; [|apply H1; reflexivity]. apply text_only_parts.
    + simpl. f_equal. apply replayed_no_image. now apply H1.
  - intros env l Hl.
    destruct (run_keeps_ok env Hok) as [_ Hreq].
    destruct (Hreq l Hl) as (q & Hq & mime & data & mid & Hc & Ht & -> & Hm).
    exists q, mime, data, mid. repeat split; auto.
    simpl. f_equal. now apply shape_no_image.
Qed.

Lemma replay_begins_with_image_ends_with_question_witness :
  build_chat_history "Is this serious?" (fresh_world session_analyzed)
  = (Ok [first_turn "image/png" [x89; x50; x4e; x47];
         model_turn "No fracture."; user_turn "Is this serious?"],
     fresh_world session_analyzed).
Proof.
  destruct (@replay_begins_with_image_ends_with_question
              session_analyzed reachable_analyzed) as [H _].
  destruct (H [x89; x50; x4e; x47] eq_refl) as (mime & h & Ht & Hh & Hb).
  vm_compute in Ht, Hh. injection Ht as <-. injection Hh as <-.
  exact (proj1 (Hb "Is this serious?" (fresh_world session_analyzed) eq_refl)).
Defined.




(** ** Failing calls (lines 102-103 and 182-183) *)

(** The call for [req] fails: [generate_content] raises, or the response
    has no text. *)
Definition call_fails (env : Env) (req : Request) : Prop :=
  match generate_content env req with
  | inl _ => True
  | inr r => match text r with
             | inl _ => True
             | inr _ => False
             end
  end.

(** C3.  When the call of the analysis handler fails, the handler ends
    normally with the session as it found it and an error message at the end
    of the page; the same holds of the follow-up handler when its call
    fails.  Nothing is appended to the history on either path. *)
Theorem failed_call_appends_nothing
  (env : Env) (w : World) (mime : string) (data : list byte)
  (h : list Turn) :
  uploaded_file_content (session_state w) = Some data ->
  uploaded_file_type (session_state w) = Some mime ->
  history (session_state w) = Some h ->
  Forall text_only h ->
  (submit_button env = true -> uploaded_file env <> None ->
   call_fails env (analysis_request mime data) ->
   exists shown e,
     on_submit env w
     = (Ok tt,
        mkWorld (session_state w)
                (page w ++ shown ++ [st_error "An error occurred: " (Some e)])
                (sent w ++ [analysis_request mime data]) (configured w)))
  /\ (forall q,
        let l := first_turn mime data :: replayed h ++ [user_turn q] in
        call_fails env (ChatHistory l) ->
        exists shown e,
          on_chat_input env q w
          = (Ok tt,
             mkWorld (session_state w)
                     (page w ++ shown
                      ++ [st_error "An error occurred during follow-up: "
                                   (Some e)])
                     (sent w ++ [ChatHistory l]) (configured w))).
Proof.
  intros Hc Ht Hh Htxt. split.
  - intros Hb Hu Hf. unfold on_submit, try_except. rewrite Hb.
    destruct (uploaded_file env) as [f|]; [|now elim Hu].
    rewrite (analysis_body_eq env w Hc Ht Hh). unfold call_fails in Hf.
    simpl. destruct (generate_content env _) as [e|r].
    + exists [st_spinner "Analyzing the image..."], e.
      unfold emit. simpl. now rewrite <- app_assoc.
    + destruct (text r) as [e|t]; [|contradiction].
      exists [st_spinner "Analyzing the image...";
              st_subheader "Analysis Result"], e.
      unfold emit, write_page. simpl. now rewrite <- !app_assoc.
  - intros q l Hf. rewrite (on_chat_input_eq env q w Hc Ht Hh Htxt).
    unfold call_fails in Hf. fold l. simpl.
    destruct (generate_content env _) as [e|r].
    + exists [st_chat_message "user"; st_markdown (Text q);
              st_spinner "Thinking..."], e. reflexivity.
    + destruct (text r) as [e|t]; [|contradiction].
      exists [st_chat_message "user"; st_markdown (Text q);
              st_spinner "Thinking..."; st_chat_message "assistant"], e.
      reflexivity.
Qed.

Lemma failed_call_appends_nothing_witness :
  session_state (snd (on_submit env_analyze_down
                                (fresh_world session_analyzed)))
  = session_analyzed
  /\ session_state (snd (on_chat_input env_ask_blocked "Is this serious?"
                                       (fresh_world session_analyzed)))
     = session_analyzed.
Proof.
  assert (Htxt : Forall text_only
                   [user_turn sentinel; model_turn "No fracture."]).
  { repeat constructor; eexists; reflexivity. }
  split.
  - destruct (proj1 (@failed_call_appends_nothing
                       env_analyze_down (fresh_world session_analyzed)
                       "image/png" [x89; x50; x4e; x47]
                       [user_turn sentinel; model_turn "No fracture."]
                       eq_refl eq_refl eq_refl Htxt))
      as (shown & e & H).
    + reflexivity.
    + simpl. discriminate.
    + exact I.
    + rewrite H. reflexivity.
  - destruct (proj2 (@failed_call_appends_nothing
                       env_ask_blocked (fresh_world session_analyzed)
                       "image/png" [x89; x50; x4e; x47]
                       [user_turn sentinel; model_turn "No fracture."]
                       eq_refl eq_refl eq_refl Htxt)
                    "Is this serious?")
      as (shown & e & H).
    + exact I.
    + rewrite H. reflexivity.
Defined.

(** ** The upload handler (lines 60-69) *)

(** The session right after a new file was stored. *)
Definition stored (f : UploadedFile) : SessionState :=
  mkSession (Some (getvalue f)) (Some (name f)) (Some (type f)) (Some []).


Lemma configure_ok (env : Env) (k : string) (w : World) :
  resolve_api_key env = Some k -> k <> "" ->
  configure env w
  = (Ok tt, mkWorld (session_state w) (page w) (sent w) (Some k)).
Proof.
  intros Hk Hne. unfold configure. rewrite Hk. simpl.
  destruct (String.eqb k "") eqn:E; [|reflexivity].
  apply String.eqb_eq in E. contradiction.
Qed.



(** ** The credential (lines 6-26) *)

(** What the secret store yields: nothing when the secrets file is missing
    or has no ["api_key"] entry. *)
Definition secret_value (env : Env) : option string :=
  match secrets env with
  | Some d => lookup "api_key" d
  | None => None
  end.

Definition with_secrets (env : Env) (sec : option (list (string * string)))
  : Env :=
  mkEnv (api_key_module env) sec (uploaded_file env) (submit_button env)
        (chat_input env) (generate_content env).

Lemma truthy_some (k : option string) :
  truthy k = true -> exists v, k = Some v /\ v <> "".
Proof.
  destruct k as [v|]; simpl; [|discriminate].
  intros H. exists v. split; auto. intros ->. discriminate.
Qed.

Lemma resolve_api_key_falsy (env : Env) :
  truthy (api_key_module env) = false ->
  truthy (secret_value env) = false ->
  truthy (resolve_api_key env) = false.
Proof.
  intros Hf Hs. unfold resolve_api_key, secret_value in *. rewrite Hf. simpl.
  destruct (secrets env) as [d|]; auto.
  destruct (lookup "api_key" d); auto.
Qed.

(** C5.  A non-empty value from the local file is the credential whatever
    the secret store holds; otherwise a non-empty value of the secret store
    is; a resolved credential is the one configured; and when neither
    source yields a non-empty value the run stops with the error message as
    the only thing on the page, the session untouched and nothing sent. *)
Theorem credential_resolution (env : Env) :
  (truthy (api_key_module env) = true ->
   forall sec, resolve_api_key (with_secrets env sec) = api_key_module env)
  /\ (truthy (api_key_module env) = false ->
      truthy (secret_value env) = true ->
      resolve_api_key env = secret_value env)
  /\ (truthy (api_key_module env) || truthy (secret_value env) = true ->
      exists k, resolve_api_key env = Some k /\ k <> ""
                /\ forall w, configure env w
                             = (Ok tt, mkWorld (session_state w) (page w)
                                               (sent w) (Some k)))
  /\ (truthy (api_key_module env) = false ->
      truthy (secret_value env) = false ->
      forall s, run env s
                = (Stop, mkWorld s [st_error missing_key_message None] []
                                 None)).
Proof.
  assert (H1 : truthy (api_key_module env) = true ->
               forall sec, resolve_api_key (with_secrets env sec)
                           = api_key_module env).
  { intros Hf sec. unfold resolve_api_key. simpl. now rewrite Hf. }
  assert (H2 : truthy (api_key_module env) = false ->
               truthy (secret_value env) = true ->
               resolve_api_key env = secret_value env).
  { intros Hf Hs. unfold resolve_api_key, secret_value in *. rewrite Hf.
    simpl. destruct (secrets env) as [d|]; [|discriminate].
    destruct (lookup "api_key" d); [reflexivity|discriminate]. }
  repeat split; auto.
  - intros Hor.
    assert (Ht : truthy (resolve_api_key env) = true).
    { destruct (truthy (api_key_module env)) eqn:Hf.
      - specialize (H1 eq_refl (secrets env)).
        unfold with_secrets in H1. destruct env; simpl in *.
        rewrite H1. exact Hf.
      - simpl in Hor. now rewrite H2. }
    destruct (truthy_some _ Ht) as (k & Hk & Hne).
    exists k. repeat split; auto. intros w. now apply configure_ok.
  - intros Hf Hs s.
    pose proof (resolve_api_key_falsy env Hf Hs) as Ht.
    unfold run, script. unfold bind at 1. unfold configure.
    destruct (resolve_api_key env) as [k|]; [rewrite Ht|]; reflexivity.
Qed.

Lemma credential_resolution_witness :
  resolve_api_key env_both_keys = Some "from-file"
  /\ resolve_api_key env_secret_only = Some "from-secrets"
  /\ configured (snd (run env_secret_only empty_session))
     = Some "from-secrets"
  /\ run env_no_key session_analyzed
     = (Stop, mkWorld session_analyzed
                      [st_error missing_key_message None] [] None).
Proof.
  split; [|split; [|split]].
  - exact (proj1 (credential_resolution env_both_keys) eq_refl
                 (Some [("api_key", "from-secrets")])).
  - exact (proj1 (proj2 (credential_resolution env_secret_only))
                 eq_refl eq_refl).
  - destruct (proj1 (proj2 (proj2 (credential_resolution env_secret_only)))
                    eq_refl) as (k & Hk & _ & _).
    injection Hk as <-. reflexivity.
  - exact (proj2 (proj2 (proj2 (credential_resolution env_no_key)))
                 eq_refl eq_refl session_analyzed).
Defined.

(** ** The analysis handler (lines 76-105) *)

(** C6.  When the button is pressed with a file selected and the call
    succeeds with text [t], the handler appends to the stored history [h]
    exactly the user turn holding the sentinel and then the model turn
    holding [t]; nothing else in the session changes. *)
Theorem analysis_appends_two_turns
  (env : Env) (w : World) (mime t : string) (data : list byte)
  (h : list Turn) :
  submit_button env = true ->
  uploaded_file env <> None ->
  uploaded_file_content (session_state w) = Some data ->
  uploaded_file_type (session_state w) = Some mime ->
  history (session_state w) = Some h ->
  generate_content env (analysis_request mime data)
  = inr (mkResponse (inr t)) ->
  on_submit env w
  = (Ok tt,
     mkWorld (with_history (session_state w)
                (h ++ [mkTurn "user" [Text "Analyze this medical image."];
                       mkTurn "model" [Text t]]))
             (page w ++ [st_spinner "Analyzing the image...";
                         st_subheader "Analysis Result"; st_write t])
             (sent w ++ [analysis_request mime data]) (configured w)).
Proof.
  intros Hb Hu Hc Ht Hh Hg. unfold on_submit, try_except. rewrite Hb.
  destruct (uploaded_file env) as [f|]; [|now elim Hu].
  rewrite (analysis_body_eq env w Hc Ht Hh), Hg. simpl.
  unfold put_world_session, write_page. simpl.
  now rewrite <- !app_assoc.
Qed.

Lemma analysis_appends_two_turns_witness :
  history (session_state
             (snd (on_submit env_analyze (fresh_world (stored image_a)))))
  = Some [user_turn sentinel; model_turn "No fracture."].
Proof.
  rewrite (@analysis_appends_two_turns
             env_analyze (fresh_world (stored image_a))
             "image/png" "No fracture." [x89; x50; x4e; x47] []
             eq_refl ltac:(simpl; discriminate) eq_refl eq_refl
             eq_refl eq_refl).
  reflexivity.
Defined.

(** C8.  When the button is pressed with no file selected, the handler
    only writes the warning: the session and the list of requests sent are
    as before. *)
Theorem submit_without_image_only_warns (env : Env) (w : World) :
  submit_button env = true ->
  uploaded_file env = None ->
  on_submit env w
  = (Ok tt,
     mkWorld (session_state w)
             (page w ++ [st_warning "Please upload an image first."])
             (sent w) (configured w)).
Proof.
  intros Hb Hu. unfold on_submit. now rewrite Hb, Hu.
Qed.

Lemma submit_without_image_only_warns_witness :
  on_submit env_no_image (fresh_world session_analyzed)
  = (Ok tt,
     mkWorld session_analyzed [st_warning "Please upload an image first."]
             [] None).
Proof.
  exact (@submit_without_image_only_warns
           env_no_image (fresh_world session_analyzed) eq_refl eq_refl).
Defined.

(** ** The transcript (lines 114-130) *)

(** C7, as the script has it.  On a stored history of text turns the render
    loop writes one chat bubble for each turn it does not hide, in order,
    and no user turn whose text is the sentinel is among the turns shown. *)
Theorem transcript_hides_user_sentinel (h : list Turn) (w : World) :
  Forall text_only h ->
  for_each h render_message w
  = (Ok tt,
     write_page w (flat_map bubble (filter (fun t => negb (hidden t)) h)))
  /\ (forall t, In t (filter (fun t => negb (hidden t)) h) ->
        ~ (role t = "user" /\ parts t = [Text sentinel])).
Proof.
  intros Htxt. split; [exact (render_loop_filter Htxt w)|].
  intros t Ht [Hr Hp]. apply filter_In in Ht. destruct Ht as [_ Hh].
  unfold hidden in Hh. rewrite Hp, Hr in Hh. discriminate.
Qed.

Lemma transcript_hides_user_sentinel_witness :
  for_each [user_turn sentinel; model_turn "No fracture."] render_message
           (fresh_world session_analyzed)
  = (Ok tt,
     write_page (fresh_world session_analyzed)
                [st_chat_message "model"; st_markdown (Text "No fracture.")]).
Proof.
  refine (proj1 (@transcript_hides_user_sentinel
                   [user_turn sentinel; model_turn "No fracture."]
                   (fresh_world session_analyzed) _)).
  repeat constructor; eexists; reflexivity.
Defined.

(** C7, as stated, fails: a model turn whose text is the sentinel is
    stored by a run and shown by the render loop, and a question typed as
    the sentinel is echoed on the page of the run that receives it. *)
Lemma transcript_shows_sentinel_text :
  history (session_state (snd (run env_parrot empty_session)))
  = Some [user_turn sentinel; model_turn sentinel]
  /\ page (snd (for_each [user_turn sentinel; model_turn sentinel]
                         render_message (fresh_world empty_session)))
     = [st_chat_message "model"; st_markdown (Text sentinel)]
  /\ In (st_markdown (Text sentinel))
        (page (snd (run env_parrot empty_session)))
  /\ In (st_markdown (Text sentinel))
        (page (snd (run env_type_sentinel session_analyzed))).
Proof.
  split; [reflexivity|]. split; [reflexivity|]. split.
  - vm_compute. tauto.
  - vm_compute. tauto.
Qed.

(** ** What the history holds *)

(** C9.  In every session the script can reach, each stored turn has
    exactly one part and that part is text, so no stored turn carries image
    data; and the list built for a question carries image data in no turn
    after its first. *)
Theorem history_holds_text_only (s : SessionState) (h : list Turn) :
  reachable s ->
  history s = Some h ->
  Forall text_only h
  /\ Forall (fun t => carries_image t = false) h
  /\ (forall q w, session_state w = s ->
        exists l, build_chat_history q w = (Ok l, w)
                  /\ Forall (fun t => carries_image t = false) (tl l)).
Proof.
  intros Hr Hh. pose proof (reachable_ok Hr) as Hok.
  assert (Htxt : Forall text_only h) by (now apply Hok).
  assert (Hne : Forall (fun t => parts t <> []) h).
  { eapply Forall_impl; [|exact Htxt]. apply text_only_parts. }
  assert (Hrest : forall q, Forall (fun t => carries_image t = false)
                                   (replayed h ++ [user_turn q])).
  { intros q. apply Forall_app. split.
    - eapply Forall_impl; [|apply replayed_text_only, Htxt].
      apply text_only_no_image.
    - repeat constructor. }
  split; [exact Htxt|]. split.
  - eapply Forall_impl; [|exact Htxt]. apply text_only_no_image.
  - intros q w <-.
    destruct (uploaded_file_content (session_state w)) as [data|] eqn:Hc.
    + destruct Hok as (_ & _ & H3).
      destruct H3 as (Ht & _ & _); [rewrite Hc; discriminate|].
      destruct (uploaded_file_type (session_state w)) as [mime|] eqn:Hty;
        [|now elim Ht].
      eexists. split; [eapply build_chat_history_eq; eassumption|].
      apply Hrest.
    + eexists. split; [eapply build_chat_history_no_image; eassumption|].
      specialize (Hrest q).
      destruct (replayed h ++ [user_turn q]) as [|t l]; simpl; auto.
      now inversion Hrest.
Qed.

Lemma history_holds_text_only_witness :
  Forall text_only
         [user_turn sentinel; model_turn "No fracture.";
          user_turn "Is this serious?"; model_turn "No."].
Proof.
  exact (proj1 (@history_holds_text_only
                  session_asked
                  [user_turn sentinel; model_turn "No fracture.";
                   user_turn "Is this serious?"; model_turn "No."]
                  reachable_asked eq_refl)).
Defined.

(** ** A question that reads like the sentinel *)

(** C10.  When the user types the sentinel text as a question and the call
    succeeds with text [t], the question is appended to the history as a
    user turn followed by the answer; in every later history the replay
    loop and the render loop pass over that user turn: both give what they
    give on the history with the turn taken out. *)
Theorem typed_sentinel_is_stored_then_skipped
  (env : Env) (w : World) (mime t : string) (data : list byte)
  (h : list Turn) :
  uploaded_file_content (session_state w) = Some data ->
  uploaded_file_type (session_state w) = Some mime ->
  history (session_state w) = Some h ->
  Forall text_only h ->
  generate_content
    env (ChatHistory (first_turn mime data
                      :: replayed h ++ [user_turn sentinel]))
  = inr (mkResponse (inr t)) ->
  history (session_state (snd (on_chat_input env sentinel w)))
  = Some (h ++ [mkTurn "user" [Text sentinel]; mkTurn "model" [Text t]])
  /\ (forall later,
        Forall text_only later ->
        let before := h in
        let after := mkTurn "model" [Text t] :: later in
        let h' := before ++ mkTurn "user" [Text sentinel] :: after in
        (forall acc w',
           replay_loop acc h' w' = replay_loop acc (before ++ after) w')
        /\ (forall w',
              for_each h' render_message w'
              = for_each (before ++ after) render_message w')
        /\ replayed h' = replayed before ++ replayed after
        /\ displayed h' = displayed before ++ displayed after).
Proof.
  intros Hc Ht Hh Htxt Hg. split.
  - rewrite (on_chat_input_eq env sentinel w Hc Ht Hh Htxt). simpl.
    rewrite Hg. reflexivity.
  - intros later Hl before after h'.
    assert (Ha : Forall text_only after).
    { constructor; auto. eexists; reflexivity. }
    assert (Hba : Forall text_only (before ++ after)).
    { apply Forall_app. split; assumption. }
    assert (Hh' : Forall text_only h').
    { apply Forall_app. split; auto. constructor; auto.
      eexists; reflexivity. }
    assert (Hrep : replayed h' = replayed before ++ replayed after).
    { unfold h'. rewrite replayed_app. reflexivity. }
    assert (Hdis : displayed h' = displayed before ++ displayed after).
    { unfold h'. rewrite displayed_app. reflexivity. }
    repeat split; auto.
    + intros acc w'.
      rewrite !replay_loop_filter
        by (eapply Forall_impl; [apply text_only_parts|assumption]).
      now rewrite Hrep, replayed_app.
    + intros w'. rewrite !render_loop_filter by assumption.
      now rewrite Hdis, displayed_app.
Qed.

Lemma typed_sentinel_is_stored_then_skipped_witness :
  history (session_state
             (snd (on_chat_input env_type_sentinel sentinel
                                 (fresh_world session_analyzed))))
  = Some [user_turn sentinel; model_turn "No fracture.";
          user_turn sentinel; model_turn "It is an X-ray."].
Proof.
  refine (proj1 (@typed_sentinel_is_stored_then_skipped
                   env_type_sentinel (fresh_world session_analyzed)
                   "image/png" "It is an X-ray." [x89; x50; x4e; x47]
                   [user_turn sentinel; model_turn "No fracture."]
                   eq_refl eq_refl eq_refl _ eq_refl)).
  repeat constructor; eexists; reflexivity.
Defined.

(** * What a whole run does to the session *)

(** ** The handlers as session transformers

    On the sessions the script can be in, no handler raises past its
    [except]; each then acts on the session as one of the functions below
    and sends the requests listed beside it. *)

(** Lines 60-69. *)
Definition upload_session (env : Env) (s : SessionState) : SessionState :=
  match uploaded_file env with
  | None => s
  | Some f =>
      match uploaded_file_content s, uploaded_file_name s with
      | Some _, Some n =>
          if String.eqb n (name f) then s
          else mkSession (Some (getvalue f)) (Some (name f)) (Some (type f))
                         (Some [])
      | _, _ => mkSession (Some (getvalue f)) (Some (name f)) (Some (type f))
                          (Some [])
      end
  end.

(** Lines 73-74. *)
Definition init_session (s : SessionState) : SessionState :=
  match history s with
  | None => with_history s []
  | Some _ => s
  end.

(** Lines 76-103: the request of the analysis handler, when it gets as far
    as the call. *)
Definition submit_requests (env : Env) (s : SessionState) : list Request :=
  match submit_button env, uploaded_file env,
        uploaded_file_content s, uploaded_file_type s with
  | true, Some _, Some data, Some mime =>
      [PromptParts [InlineData mime data; Text analysis_instruction]]
  | _, _, _, _ => []
  end.

Definition submit_session (env : Env) (s : SessionState) : SessionState :=
  match submit_button env, uploaded_file env,
        uploaded_file_content s, uploaded_file_type s, history s with
  | true, Some _, Some data, Some mime, Some h =>
      match generate_content
              env (PromptParts [InlineData mime data;
                                Text analysis_instruction]) with
      | inr r =>
          match text r with
          | inr t => with_history s (h ++ [mkTurn "user" [Text sentinel];
                                           mkTurn "model" [Text t]])
          | inl _ => s
          end
      | inl _ => s
      end
  | _, _, _, _, _ => s
  end.

(** Line 127: the question, when one was typed. *)
Definition chat_question (env : Env) : option string :=
  match chat_input env with
  | Some q => if String.eqb q "" then None else Some q
  | None => None
  end.

(** Lines 108-183. *)
Definition chat_requests (env : Env) (s : SessionState) : list Request :=
  match history s, chat_question env,
        uploaded_file_content s, uploaded_file_type s with
  | Some (t :: h), Some q, Some data, Some mime =>
      [ChatHistory (mkTurn "user" [InlineData mime data;
                                   Text replay_instruction]
                    :: replayed (t :: h) ++ [mkTurn "user" [Text q]])]
  | _, _, _, _ => []
  end.

Definition chat_session (env : Env) (s : SessionState) : SessionState :=
  match history s, chat_question env,
        uploaded_file_content s, uploaded_file_type s with
  | Some (t :: h), Some q, Some data, Some mime =>
      match generate_content
              env (ChatHistory (mkTurn "user" [InlineData mime data;
                                               Text replay_instruction]
                                :: replayed (t :: h)
                                   ++ [mkTurn "user" [Text q]])) with
      | inr r =>
          match text r with
          | inr a => with_history s ((t :: h) ++ [mkTurn "user" [Text q];
                                                  mkTurn "model" [Text a]])
          | inl _ => s
          end
      | inl _ => s
      end
  | _, _, _, _ => s
  end.

(** The session before the analysis handler, before the chat section and
    at the end of a run that got past the credential check. *)
Definition session_at_submit (env : Env) (s : SessionState) : SessionState :=
  init_session (upload_session env s).
Definition session_at_chat (env : Env) (s : SessionState) : SessionState :=
  submit_session env (session_at_submit env s).
Definition next_session (env : Env) (s : SessionState) : SessionState :=
  chat_session env (session_at_chat env s).
Definition run_requests (env : Env) (s : SessionState) : list Request :=
  submit_requests env (session_at_submit env s)
  ++ chat_requests env (session_at_chat env s).

(** [effect P m f g]: from a session in [P] the script [m] ends normally,
    has only added to the page, has sent [g] and left the session [f]. *)
Definition effect (P : SessionState -> Prop) (m : M unit)
  (f : SessionState -> SessionState) (g : SessionState -> list Request)
  : Prop :=
  forall w, P (session_state w) ->
    exists shown,
      m w = (Ok tt, mkWorld (f (session_state w)) (page w ++ shown)
                            (sent w ++ g (session_state w)) (configured w)).

(** Everything of the script after the credential check. *)
Definition after_configure (env : Env) : M unit :=
  emit st_set_page_config ;;;
  emit (st_title "Medical Image Analytics") ;;;
  emit (st_subheader
          "An application that can help users to identify medical images") ;;;
  emit st_file_uploader ;;;
  on_upload env ;;;
  handlers env.

Definition has_history (s : SessionState) : Prop :=
  session_ok s /\ history s <> None.

Lemma effect_emit (P : SessionState -> Prop) (ev : UiEvent) :
  effect P (emit ev) (fun s => s) (fun _ => []).
Proof.
  intros w _. exists [ev]. unfold emit. now rewrite app_nil_r.
Qed.

Lemma effect_seq (P P' : SessionState -> Prop) (m m' : M unit) f g f' g' :
  effect P m f g -> effect P' m' f' g' ->
  (forall s, P s -> P' (f s)) ->
  effect P (m ;;; m') (fun s => f' (f s)) (fun s => g s ++ g' (f s)).
Proof.
  intros Hm Hm' Hpre w HP. destruct (Hm w HP) as [p1 E1].
  unfold bind. rewrite E1.
  destruct (Hm' (mkWorld (f (session_state w)) (page w ++ p1)
                         (sent w ++ g (session_state w)) (configured w)))
    as [p2 E2]; [now apply Hpre|].
  rewrite E2. exists (p1 ++ p2). simpl. now rewrite !app_assoc.
Qed.

Lemma effect_weaken (P P' : SessionState -> Prop) (m : M unit) f g :
  (forall s, P' s -> P s) -> effect P m f g -> effect P' m f g.
Proof. intros HP Hm w Hw. apply Hm. now apply HP. Qed.

Lemma upload_session_ok (env : Env) (s : SessionState) :
  session_ok s -> session_ok (upload_session env s).
Proof.
  intros H. unfold upload_session.
  destruct (uploaded_file env) as [f|]; auto.
  destruct (uploaded_file_content s); [|apply session_ok_stored].
  destruct (uploaded_file_name s) as [n|]; [|apply session_ok_stored].
  destruct (String.eqb n (name f)); auto. apply session_ok_stored.
Qed.

Lemma init_session_ok (s : SessionState) :
  session_ok s -> has_history (init_session s).
Proof.
  intros H. unfold init_session, has_history.
  destruct (history s) eqn:Hh.
  - split; auto. rewrite Hh. discriminate.
  - split; [now apply session_ok_init|]. simpl. discriminate.
Qed.

(** Case analysis on every [match] of the goal. *)
Ltac split_matches :=
  repeat match goal with
         | |- context [match ?x with _ => _ end] =>
             lazymatch x with
             | context [match _ with _ => _ end] => fail
             | _ => destruct x eqn:?
             end
         end.

Lemma submit_session_ok (env : Env) (s : SessionState) :
  has_history s -> has_history (submit_session env s).
Proof.
  intros [H Hh]. unfold submit_session. split_matches;
    try (split; [assumption|congruence]).
  split; [|simpl; discriminate].
  apply session_ok_append; auto; congruence.
Qed.

Lemma chat_session_ok (env : Env) (s : SessionState) :
  has_history s -> has_history (chat_session env s).
Proof.
  intros [H Hh]. unfold chat_session. split_matches;
    try (split; [assumption|congruence]).
  split; [|simpl; discriminate].
  match goal with
  | Hhi : history s = Some (?t :: ?h) |- _ =>
      refine (session_ok_append (h := t :: h) _ _ H _ Hhi)
  end.
  congruence.
Qed.

Lemma world_eta (w : World) :
  w = mkWorld (session_state w) (page w ++ []) (sent w ++ []) (configured w).
Proof. destruct w. simpl. now rewrite !app_nil_r. Qed.

Lemma session_ok_fields (s : SessionState) (data : list byte) :
  session_ok s -> uploaded_file_content s = Some data ->
  exists mime n h,
    uploaded_file_type s = Some mime /\ uploaded_file_name s = Some n
    /\ history s = Some h.
Proof.
  intros (_ & _ & H3) Hc.
  destruct H3 as (Ht & Hn & Hh); [congruence|].
  destruct (uploaded_file_type s) as [mime|]; [|now elim Ht].
  destruct (uploaded_file_name s) as [n|]; [|now elim Hn].
  destruct (history s) as [h|]; [|now elim Hh].
  now exists mime, n, h.
Qed.

Section Effects.

Variable env : Env.

Lemma effect_on_upload :
  effect session_ok (on_upload env) (upload_session env) (fun _ => []).
Proof.
  intros w H. unfold on_upload, upload_session.
  destruct (uploaded_file env) as [f|];
    [|exists []; unfold ret; now rewrite <- world_eta].
  exists [st_image f].
  unfold getattr, store_upload, bind, emit, get_session, put_session. simpl.
  rewrite app_nil_r.
  destruct (uploaded_file_content (session_state w)) as [data|] eqn:Hc;
    [|reflexivity].
  destruct (session_ok_fields H Hc) as (mime & n & h & _ & Hn & _).
  repeat (progress (simpl; rewrite ?Hn)).
  destruct (String.eqb n (name f)); reflexivity.
Qed.

Lemma effect_init_history :
  effect session_ok init_history init_session (fun _ => []).
Proof.
  intros w H. exists [].
  unfold init_history, init_session, set_history, bind, get_session,
    put_session.
  destruct (history (session_state w)); simpl.
  - unfold ret. now rewrite <- world_eta.
  - now rewrite !app_nil_r.
Qed.

Lemma effect_on_submit :
  effect session_ok (on_submit env) (submit_session env)
         (submit_requests env).
Proof.
  intros w H. unfold on_submit, submit_session, submit_requests.
  destruct (submit_button env);
    [|exists []; unfold ret; now rewrite <- world_eta].
  destruct (uploaded_file env) as [f|].
  - unfold try_except.
    destruct (uploaded_file_content (session_state w)) as [data|] eqn:Hc.
    + destruct (session_ok_fields H Hc) as (mime & n & h & Ht & _ & Hh).
      rewrite (analysis_body_eq env w Hc Ht Hh), Ht, Hh.
      unfold analysis_request. simpl.
      destruct (generate_content env _) as [e|r]; simpl.
      * eexists. unfold emit. simpl. rewrite <- app_assoc. reflexivity.
      * destruct (text r) as [e|t]; simpl.
        -- eexists. unfold emit. simpl. rewrite <- !app_assoc. reflexivity.
        -- eexists. unfold put_world_session, write_page. simpl.
           rewrite <- !app_assoc. reflexivity.
    + rewrite (analysis_body_no_image env w Hc).
      eexists. unfold emit. now rewrite (app_nil_r (sent w)).
  - eexists. unfold emit. now rewrite (app_nil_r (sent w)).
Qed.

Lemma effect_chat_section :
  effect has_history (chat_section env) (chat_session env)
         (chat_requests env).
Proof.
  intros w [H Hh]. unfold chat_section, chat_session, chat_requests,
                     chat_question, getattr.
  unfold bind at 1. unfold bind at 1. unfold get_session.
  destruct (history (session_state w)) as [h|] eqn:Hhi; [|now elim Hh].
  simpl. destruct h as [|t0 h0];
    [exists []; unfold ret; now rewrite <- world_eta|].
  destruct (session_ok_image H Hhi) as (mime & data & Hc & Ht).
  assert (Htxt : Forall text_only (t0 :: h0)) by (now apply H).
  unfold bind, emit. rewrite (render_loop_filter Htxt). rewrite Hc, Ht.
  destruct (chat_input env) as [q|].
  - destruct (String.eqb q "").
    + eexists. unfold ret, write_page. simpl.
      rewrite (app_nil_r (sent w)), <- !app_assoc. reflexivity.
    + erewrite on_chat_input_eq; try (simpl; eassumption).
      unfold first_turn, user_turn, model_turn. simpl.
      destruct (generate_content env _) as [e|r]; simpl.
      * eexists. rewrite <- !app_assoc. reflexivity.
      * destruct (text r) as [e|a]; simpl;
          eexists; rewrite <- !app_assoc; reflexivity.
  - eexists. unfold ret, write_page. simpl.
    rewrite (app_nil_r (sent w)), <- !app_assoc. reflexivity.
Qed.

Lemma effect_handlers :
  effect session_ok (handlers env)
         (fun s => chat_session env (submit_session env (init_session s)))
         (fun s => submit_requests env (init_session s)
                   ++ chat_requests env (submit_session env (init_session s))).
Proof.
  assert (E1 : effect has_history (on_submit env ;;; chat_section env)
                 (fun s => chat_session env (submit_session env s))
                 (fun s => submit_requests env s
                           ++ chat_requests env (submit_session env s))).
  { apply effect_seq with (P' := has_history).
    - apply effect_weaken with (P := session_ok);
        [intros s Hs; apply Hs | apply effect_on_submit].
    - apply effect_chat_section.
    - apply submit_session_ok. }
  assert (E2 : effect session_ok
                 (init_history ;;; on_submit env ;;; chat_section env)
                 (fun s => chat_session env
                             (submit_session env (init_session s)))
                 (fun s => [] ++ submit_requests env (init_session s)
                           ++ chat_requests
                                env (submit_session env (init_session s)))).
  { apply (effect_seq effect_init_history E1). apply init_session_ok. }
  unfold handlers.
  exact (effect_seq (effect_emit session_ok st_button) E2 (fun s H => H)).
Qed.

Lemma effect_after_configure :
  effect session_ok (after_configure env) (next_session env)
         (run_requests env).
Proof.
  assert (E : effect session_ok (on_upload env ;;; handlers env)
                (next_session env)
                (fun s => [] ++ run_requests env s)).
  { apply (effect_seq effect_on_upload effect_handlers).
    apply upload_session_ok. }
  unfold after_configure.
  exact (effect_seq (effect_emit session_ok _)
           (effect_seq (effect_emit session_ok _)
              (effect_seq (effect_emit session_ok _)
                 (effect_seq (effect_emit session_ok _) E (fun s H => H))
                 (fun s H => H))
              (fun s H => H))
           (fun s H => H)).
Qed.

(** A run whose credential resolves to [k]. *)
Lemma run_resolved (s : SessionState) (k : string) :
  session_ok s -> resolve_api_key env = Some k -> k <> "" ->
  exists shown,
    run env s
    = (Ok tt, mkWorld (next_session env s) shown (run_requests env s)
                      (Some k)).
Proof.
  intros Hs Hk Hne. unfold run, script. unfold bind at 1.
  rewrite (configure_ok env _ Hk Hne). simpl.
  destruct (effect_after_configure
              (mkWorld s [] [] (Some k)) Hs) as [shown E].
  exists shown. exact E.
Qed.

(** A run without a credential. *)
Lemma run_unconfigured (s : SessionState) :
  truthy (resolve_api_key env) = false ->
  run env s = (Stop, mkWorld s [st_error missing_key_message None] [] None).
Proof.
  intros Ht. unfold run, script. unfold bind at 1. unfold configure.
  destruct (resolve_api_key env) as [k|]; [rewrite Ht|]; reflexivity.
Qed.

End Effects.

(** ** Properties of whole runs *)


Definition env_idle : Env :=
  mkEnv (Some "key") None (Some image_a) false None (answers "unused").



(** X2.  A run sends at most two requests, the analysis request before
    the chat request; it sends an analysis request only when the button was
    pressed with a file selected, and a chat request only when a non-empty
    question was typed. *)
Theorem run_sends_at_most_two_requests (s : SessionState) (env : Env) :
  reachable s ->
  exists a c,
    sent (snd (run env s)) = a ++ c
    /\ (a = []
        \/ (submit_button env = true /\ uploaded_file env <> None
            /\ exists p, a = [PromptParts p]))
    /\ (c = []
        \/ (exists q l, chat_input env = Some q /\ q <> ""
                        /\ c = [ChatHistory l])).
Proof.
  intros Hr. pose proof (reachable_ok Hr) as Hok.
  destruct (truthy (resolve_api_key env)) eqn:Ht.
  - destruct (truthy_some _ Ht) as (k & Hk & Hne).
    destruct (run_resolved env Hok Hk Hne) as [shown E]. rewrite E. simpl.
    exists (submit_requests env (session_at_submit env s)),
           (chat_requests env (session_at_chat env s)).
    split; [reflexivity|]. split.
    + unfold submit_requests. split_matches; auto.
      right. repeat split; [discriminate|]. eexists; reflexivity.
    + unfold chat_requests, chat_question.
      destruct (chat_input env) as [q|]; [|split_matches; auto].
      destruct (String.eqb q "") eqn:Hq; [split_matches; auto|].
      split_matches; auto.
      right. exists q. eexists. repeat split.
      intros ->. discriminate.
  - rewrite run_unconfigured by assumption. exists [], []. auto.
Qed.

Lemma run_sends_at_most_two_requests_witness :
  exists a c,
    sent (snd (run env_ask session_analyzed)) = a ++ c
    /\ (a = []
        \/ (submit_button env_ask = true /\ uploaded_file env_ask <> None
            /\ exists p, a = [PromptParts p]))
    /\ (c = []
        \/ (exists q l, chat_input env_ask = Some q /\ q <> ""
                        /\ c = [ChatHistory l])).
Proof.
  exact (@run_sends_at_most_two_requests session_analyzed env_ask
           reachable_analyzed).
Defined.





Lemma upload_session_same (env : Env) (s : SessionState) :
  (forall f, uploaded_file env = Some f ->
     uploaded_file_name s = Some (name f)
     /\ uploaded_file_content s <> None) ->
  upload_session env s = s.
Proof.
  intros H. unfold upload_session.
  destruct (uploaded_file env) as [f|]; [|reflexivity].
  destruct (H f eq_refl) as [Hn Hc]. rewrite Hn.
  destruct (uploaded_file_content s); [|now elim Hc].
  now rewrite String.eqb_refl.
Qed.





(** X4.  A rerun in which nothing happens (the button not pressed, no
    question typed, no file or the file already stored under its name)
    leaves a session that has a history exactly as it was and sends
    nothing. *)
Theorem idle_run_keeps_session (s : SessionState) (env : Env) :
  reachable s ->
  history s <> None ->
  submit_button env = false ->
  chat_input env = None ->
  (forall f, uploaded_file env = Some f ->
     uploaded_file_name s = Some (name f)
     /\ uploaded_file_content s <> None) ->
  session_state (snd (run env s)) = s /\ sent (snd (run env s)) = [].
Proof.
  intros Hr Hh Hb Hq Hu. pose proof (reachable_ok Hr) as Hok.
  destruct (truthy (resolve_api_key env)) eqn:Ht;
    [|rewrite run_unconfigured by assumption; auto].
  destruct (truthy_some _ Ht) as (k & Hk & Hne).
  destruct (run_resolved env Hok Hk Hne) as [shown E]. rewrite E. simpl.
  unfold run_requests, next_session, session_at_chat, session_at_submit.
  rewrite (upload_session_same env s Hu).
  assert (Hi : init_session s = s).
  { unfold init_session. destruct (history s); [reflexivity|now elim Hh]. }
  rewrite Hi.
  assert (Hs : submit_session env s = s).
  { unfold submit_session. now rewrite Hb. }
  rewrite Hs. unfold submit_requests, chat_session, chat_requests,
                chat_question. rewrite Hb, Hq.
  split; split_matches; reflexivity.
Qed.

Lemma idle_run_keeps_session_witness :
  session_state (snd (run env_idle session_asked)) = session_asked
  /\ sent (snd (run env_idle session_asked)) = [].
Proof.
  refine (@idle_run_keeps_session session_asked env_idle reachable_asked
            _ eq_refl eq_refl _).
  - simpl. discriminate.
  - intros f Hf. injection Hf as <-. split; [reflexivity|].
    simpl. discriminate.
Defined.







(** ** Properties of the two loops and of the follow-up handler *)

(** X8.  A stored model turn whose text starts with the heading
    ["1.  **Detailed Description**"] is left out of the transcript by the
    render loop, yet the replay loop keeps it, so the model still receives
    it as context. *)
Theorem analysis_heading_hidden_but_replayed
  (h : list Turn) (t : Turn) (a : string) :
  Forall text_only h ->
  In t h ->
  role t = "model" ->
  parts t = [Text a] ->
  String.prefix "1.  **Detailed Description**" a = true ->
  (forall w, for_each h render_message w
             = (Ok tt, write_page w (flat_map bubble (displayed h))))
  /\ ~ In t (displayed h)
  /\ (forall acc w, replay_loop acc h w = (Ok (acc ++ replayed h), w))
  /\ In t (replayed h).
Proof.
  intros Htxt Hin Hr Hp Hpre. split; [|split; [|split]].
  - intros w. now apply render_loop_filter.
  - intros H. apply filter_In in H. destruct H as [_ Hh].
    unfold hidden, analysis_heading in Hh. rewrite Hp, Hr, Hpre in Hh.
    discriminate.
  - intros acc w. apply replay_loop_filter.
    eapply Forall_impl; [|exact Htxt]. apply text_only_parts.
  - apply filter_In. split; auto. unfold is_trigger. rewrite Hp. simpl.
    destruct (String.eqb a sentinel) eqn:E; auto.
    apply String.eqb_eq in E. subst a. vm_compute in Hpre. discriminate.
Qed.

Definition structured_analysis : string :=
  "1.  **Detailed Description**: frontal chest radiograph.".

Lemma analysis_heading_hidden_but_replayed_witness :
  ~ In (model_turn structured_analysis)
       (displayed [user_turn sentinel; model_turn structured_analysis])
  /\ In (model_turn structured_analysis)
        (replayed [user_turn sentinel; model_turn structured_analysis]).
Proof.
  assert (Htxt : Forall text_only
                   [user_turn sentinel; model_turn structured_analysis]).
  { repeat constructor; eexists; reflexivity. }
  destruct (@analysis_heading_hidden_but_replayed
              [user_turn sentinel; model_turn structured_analysis]
              (model_turn structured_analysis) structured_analysis
              Htxt (or_intror (or_introl eq_refl)) eq_refl eq_refl eq_refl)
    as (_ & H1 & _ & H2).
  split; assumption.
Defined.

(** X9.  A follow-up whose call succeeds with text [a]: the handler echoes
    the question, sends one request (the image turn, the kept stored turns
    and the question), shows the answer in an assistant bubble and appends
    the question and then the answer to the history. *)
Theorem follow_up_appends_question_and_answer
  (env : Env) (w : World) (q mime a : string) (data : list byte)
  (h : list Turn) :
  uploaded_file_content (session_state w) = Some data ->
  uploaded_file_type (session_state w) = Some mime ->
  history (session_state w) = Some h ->
  Forall text_only h ->
  generate_content
    env (ChatHistory (first_turn mime data :: replayed h ++ [user_turn q]))
  = inr (mkResponse (inr a)) ->
  on_chat_input env q w
  = (Ok tt,
     mkWorld (with_history (session_state w)
                (h ++ [mkTurn "user" [Text q]; mkTurn "model" [Text a]]))
             (page w ++ [st_chat_message "user"; st_markdown (Text q);
                         st_spinner "Thinking...";
                         st_chat_message "assistant"; st_markdown (Text a)])
             (sent w ++ [ChatHistory (first_turn mime data
                                      :: replayed h ++ [user_turn q])])
             (configured w)).
Proof.
  intros Hc Ht Hh Htxt Hg.
  rewrite (on_chat_input_eq env q w Hc Ht Hh Htxt). simpl.
  rewrite Hg. reflexivity.
Qed.

Lemma follow_up_appends_question_and_answer_witness :
  history (session_state
             (snd (on_chat_input env_ask "Is this serious?"
                                 (fresh_world session_analyzed))))
  = Some [user_turn sentinel; model_turn "No fracture.";
          user_turn "Is this serious?"; model_turn "No."].
Proof.
  assert (Htxt : Forall text_only
                   [user_turn sentinel; model_turn "No fracture."]).
  { repeat constructor; eexists; reflexivity. }
  rewrite (@follow_up_appends_question_and_answer
             env_ask (fresh_world session_analyzed) "Is this serious?"
             "image/png" "No." [x89; x50; x4e; x47]
             [user_turn sentinel; model_turn "No fracture."]
             eq_refl eq_refl eq_refl Htxt eq_refl).
  reflexivity.
Defined.

Lemma replayed_pair (q a : string) :
  q <> sentinel -> a <> sentinel ->
  replayed [user_turn q; model_turn a] = [user_turn q; model_turn a].
Proof.
  intros Hq Ha. unfold replayed, is_trigger. simpl.
  destruct (String.eqb q sentinel) eqn:E1;
    [apply String.eqb_eq in E1; contradiction|].
  destruct (String.eqb a sentinel) eqn:E2;
    [apply String.eqb_eq in E2; contradiction|].
  reflexivity.
Qed.

(** X10.  The context accumulates: after a follow-up [q1] answered [a1]
    (neither being the sentinel text), the list rebuilt for the next
    question [q2] is the list that was sent for [q1], followed by the
    answer [a1] and the question [q2]. *)
Theorem replay_extends_previous_replay
  (env : Env) (w : World) (q1 a1 q2 mime : string) (data : list byte)
  (h : list Turn) :
  uploaded_file_content (session_state w) = Some data ->
  uploaded_file_type (session_state w) = Some mime ->
  history (session_state w) = Some h ->
  Forall text_only h ->
  q1 <> sentinel ->
  a1 <> sentinel ->
  let l1 := first_turn mime data :: replayed h ++ [user_turn q1] in
  generate_content env (ChatHistory l1) = inr (mkResponse (inr a1)) ->
  build_chat_history q1 w = (Ok l1, w)
  /\ build_chat_history q2 (snd (on_chat_input env q1 w))
     = (Ok (l1 ++ [mkTurn "model" [Text a1]; mkTurn "user" [Text q2]]),
        snd (on_chat_input env q1 w)).
Proof.
  intros Hc Ht Hh Htxt Hq Ha l1 Hg.
  assert (Hne : Forall (fun t => parts t <> []) h).
  { eapply Forall_impl; [|exact Htxt]. apply text_only_parts. }
  split; [now apply build_chat_history_eq|].
  rewrite (on_chat_input_eq env q1 w Hc Ht Hh Htxt). simpl.
  fold l1. rewrite Hg. simpl.
  etransitivity.
  - eapply build_chat_history_eq; simpl;
      [exact Hc | exact Ht | reflexivity |].
    apply Forall_app. split; auto. repeat constructor; discriminate.
  - rewrite replayed_app, (replayed_pair Hq Ha). unfold l1. simpl.
    now rewrite <- !app_assoc.
Qed.

Lemma replay_extends_previous_replay_witness :
  build_chat_history
    "Should I worry?"
    (snd (on_chat_input env_ask "Is this serious?"
                        (fresh_world session_analyzed)))
  = (Ok [first_turn "image/png" [x89; x50; x4e; x47];
         model_turn "No fracture."; user_turn "Is this serious?";
         model_turn "No."; user_turn "Should I worry?"],
     snd (on_chat_input env_ask "Is this serious?"
                        (fresh_world session_analyzed))).
Proof.
  assert (Htxt : Forall text_only
                   [user_turn sentinel; model_turn "No fracture."]).
  { repeat constructor; eexists; reflexivity. }
  refine (proj2 (@replay_extends_previous_replay
                   env_ask (fresh_world session_analyzed)
                   "Is this serious?" "No." "Should I worry?"
                   "image/png" [x89; x50; x4e; x47]
                   [user_turn sentinel; model_turn "No fracture."]
                   eq_refl eq_refl eq_refl Htxt _ _ eq_refl)).
  - intros H. discriminate H.
  - intros H. discriminate H.
Defined.

(** X11.  A stored question and answer come back in the transcript of
    later runs: when the question is not the sentinel text and the answer
    does not start with the analysis heading, the render loop ends with a
    user bubble for the question and a bubble for the answer, which it
    labels ["model"] (the run that received the answer showed it under
    ["assistant"]). *)
Theorem stored_follow_up_is_rendered_later
  (h : list Turn) (q a : string) (w : World) :
  Forall text_only h ->
  q <> sentinel ->
  String.prefix "1.  **Detailed Description**" a = false ->
  for_each (h ++ [mkTurn "user" [Text q]; mkTurn "model" [Text a]])
           render_message w
  = (Ok tt,
     write_page w (flat_map bubble (displayed h)
                   ++ [st_chat_message "user"; st_markdown (Text q);
                       st_chat_message "model"; st_markdown (Text a)])).
Proof.
  intros Htxt Hq Ha.
  rewrite render_loop_filter.
  - rewrite displayed_app, flat_map_app. do 2 f_equal. f_equal.
    unfold displayed, hidden, analysis_heading. simpl. rewrite Ha.
    destruct (String.eqb q sentinel) eqn:E; [|reflexivity].
    apply String.eqb_eq in E. contradiction.
  - apply Forall_app. split; auto. repeat constructor; eexists; reflexivity.
Qed.

Lemma stored_follow_up_is_rendered_later_witness :
  for_each [user_turn sentinel; model_turn "No fracture.";
            user_turn "Is this serious?"; model_turn "No."]
           render_message (fresh_world session_asked)
  = (Ok tt,
     write_page (fresh_world session_asked)
       [st_chat_message "model"; st_markdown (Text "No fracture.");
        st_chat_message "user"; st_markdown (Text "Is this serious?");
        st_chat_message "model"; st_markdown (Text "No.")]).
Proof.
  assert (Htxt : Forall text_only
                   [user_turn sentinel; model_turn "No fracture."]).
  { repeat constructor; eexists; reflexivity. }
  refine (@stored_follow_up_is_rendered_later
            [user_turn sentinel; model_turn "No fracture."]
            "Is this serious?" "No." (fresh_world session_asked)
            Htxt _ eq_refl).
  intros H. discriminate H.
Defined.
